(** * The Items API of [server.py]

    A shallow embedding of the request handlers of [src/server.py] and the
    properties of the item registry they maintain.

    The module-level dict [items] is threaded explicitly: a handler takes the
    registry and returns what the request produced together with the registry
    it leaves behind.  What a request produces is either a response or an
    exception that no handler catches.

    A Python [str] is held as the bytes of its UTF-8 form, and [price] is a
    binary64 float, carried around but never computed with. *)

From Stdlib Require Import PrimFloat.
From stdpp Require Import gmap strings list fin_maps.

Local Open Scope string_scope.

(** ** Models (lines 28-41) *)

(** An instance of [Item].  The annotations [str], [float], [list[str]] are
    enforced when an instance is built by validation ([Item_init] below), not
    by [copy], so an attribute of an instance may hold Python's [None],
    written [None] here as well. *)
Record Item := mkItem {
  name : option string;
  description : option string;
  price : option float;
  tags : option (list string);
}.

(** An instance of [PartialItem]: every attribute defaults to [None], and
    [fields_set] records the attributes the request body assigned, a JSON
    [null] included. *)
Record PartialItem := mkPartialItem {
  p_name : option string;
  p_description : option string;
  p_price : option float;
  p_tags : option (list string);
  fields_set : gset string;
}.

Record Message := mkMessage { message : string }.

(** ** Python values held by the registry *)

(** The dict that [jsonable_encoder] makes of an [Item]: the four keys
    ["name"], ["description"], ["price"], ["tags"], a value being JSON
    [null] where the attribute was [None]. *)
Record item_dict := mkDict {
  d_name : option string;
  d_description : option string;
  d_price : option float;
  d_tags : option (list string);
}.

(** What [items.get] and [items.pop] can hand back. *)
Inductive value :=
  | PyNone
  | PyDict (d : item_dict).

(** [items = {}] (line 26). *)
Abbreviation registry := (gmap string value).

Definition items_init : registry := ∅.

(** [d.get(k)]: the stored value, [None] for a missing key. *)
Definition dict_get (d : registry) (k : string) : value :=
  default PyNone (d !! k).

(** [d.pop(k, None)]: the value as [dict_get] gives it, and the key gone. *)
Definition dict_pop (d : registry) (k : string) : value * registry :=
  (default PyNone (d !! k), delete k d).

Definition is_None (v : value) : bool :=
  match v with PyNone => true | PyDict _ => false end.

(** ** pydantic and the encoder *)

Inductive exception :=
  | ValidationError (loc : list string)
  | UnicodeEncodeError.

(** The names of the required fields that hold [None]. *)
Definition none_fields (d : item_dict) : list string :=
  (if d_name d is Some _ then [] else ["name"]) ++
  (if d_description d is Some _ then [] else ["description"]) ++
  (if d_price d is Some _ then [] else ["price"]) ++
  (if d_tags d is Some _ then [] else ["tags"]).

(** [Item] built from the keys of a dict (the call with the dict unpacked
    into keyword arguments): validation; every field is required and none
    accepts [None]. *)
Definition Item_init (d : item_dict) : exception + Item :=
  match none_fields d with
  | [] => inr (mkItem (d_name d) (d_description d) (d_price d) (d_tags d))
  | loc => inl (ValidationError loc)
  end.

(** The update dict: a key is bound ([Some]) or missing ([None]). *)
Record update_dict := mkUpdate {
  u_name : option (option string);
  u_description : option (option string);
  u_price : option (option float);
  u_tags : option (option (list string));
}.

Definition if_set {A} (p : PartialItem) (k : string) (v : A) : option A :=
  if bool_decide (k ∈ fields_set p) then Some v else None.

(** [partial_item.dict(exclude_unset=True)]. *)
Definition dict_exclude_unset (p : PartialItem) : update_dict :=
  {| u_name := if_set p "name" (p_name p);
     u_description := if_set p "description" (p_description p);
     u_price := if_set p "price" (p_price p);
     u_tags := if_set p "tags" (p_tags p) |}.

(** [item_model.copy(update=update)]: the attributes of [m] overridden by the
    bindings of [update], without validation. *)
Definition copy (m : Item) (update : update_dict) : Item :=
  {| name := default (name m) (u_name update);
     description := default (description m) (u_description update);
     price := default (price m) (u_price update);
     tags := default (tags m) (u_tags update) |}.

(** [jsonable_encoder] on a model instance. *)
Definition jsonable_encoder (m : Item) : item_dict :=
  {| d_name := name m;
     d_description := description m;
     d_price := price m;
     d_tags := tags m |}.

(** [jsonable_encoder] on a value taken from the registry: a dict is rebuilt
    key by key, [None] stays [None]. *)
Definition jsonable_encoder_value (v : value) : value :=
  match v with
  | PyNone => PyNone
  | PyDict d =>
      PyDict {| d_name := d_name d;
                d_description := d_description d;
                d_price := d_price d;
                d_tags := d_tags d |}
  end.

(** ** Responses *)

Inductive content :=
  | Empty
  | Html (text : string)
  | JsonMessage (m : Message)
  | JsonValue (v : value)
  | JsonItems (m : gmap string value).

(** Only the headers a handler sets are recorded. *)
Record Response := mkResponse {
  status_code : nat;
  body : content;
  headers : list (string * string);
}.

(** [Response()]: Starlette's defaults, status 200 and an empty body. *)
Definition Response_new : Response := mkResponse 200 Empty [].

(** [JSONResponse({"message": msg}, status_code=code)]. *)
Definition JSONResponse (msg : string) (code : nat) : Response :=
  mkResponse code (JsonMessage (mkMessage msg)) [].

Definition HTMLResponse (text : string) : Response :=
  mkResponse 200 (Html text) [].

(** What FastAPI does with a handler that returns a value, not a response
    object: the value is encoded as the body, under the route's
    [status_code] and with the headers set on the injected [response].  A
    response object that a handler returns is sent as it is. *)
Definition serialize (route_status : nat) (hdrs : list (string * string))
    (c : content) : Response :=
  mkResponse route_status c hdrs.

(** The part of Starlette's [Request] that the handlers read. *)
Record Request := mkRequest { base_url : string }.

Inductive outcome :=
  | Sent (r : Response)
  | Unhandled (e : exception).

(** ** Handlers *)

(** [index] (lines 43-45). *)
Definition index (items : registry) : outcome * registry :=
  (Sent (HTMLResponse
     "This is a FastAPI demonstration. View docs at <a href='/docs'>/docs</a>"),
   items).

Definition validates (v : value) : bool :=
  match v with
  | PyNone => false
  | PyDict d => match Item_init d with inr _ => true | inl _ => false end
  end.

(** [get_items] (lines 47-57).  The route declares
    [response_model=Dict[str, Item]], so the returned dict is validated
    against it before it is encoded. *)
Definition get_items (items : registry) : outcome * registry :=
  if bool_decide (map_Forall (λ _ v, validates v = true) items)
  then (Sent (serialize 200 [] (JsonItems items)), items)
  else (Unhandled (ValidationError ["response"]), items).

(** [get_item] (lines 59-84). *)
Definition get_item (item_id : string) (items : registry)
    : outcome * registry :=
  (Sent (serialize 200 [] (JsonValue (dict_get items item_id))), items).

(** Whether [value.encode("latin-1")] goes through, which Starlette calls
    on a header value that is assigned: every character has to be below
    U+0100.  In UTF-8 those are the characters whose bytes are all below
    0xC4 (one byte below 0x80, or a lead byte 0xC2 or 0xC3 and one
    continuation byte); every character from U+0100 on has a lead byte from
    0xC4 on. *)
Fixpoint latin_1 (s : string) : bool :=
  match s with
  | EmptyString => true
  | String c s => Nat.ltb (Ascii.nat_of_ascii c) 196 && latin_1 s
  end.

(** [create_item] (lines 86-137).  The item is stored (line 134) before the
    header is assigned (line 135); the assignment raises when the value
    cannot be encoded. *)
Definition create_item (item_id : string) (item : Item) (request : Request)
    (items : registry) : outcome * registry :=
  if negb (is_None (dict_get items item_id)) then
    (Sent (JSONResponse ("Item with id '" +:+ item_id +:+ "' already exists.")
             409),
     items)
  else
    let items := <[item_id := PyDict (jsonable_encoder item)]> items in
    let location := base_url request +:+ "items/" +:+ item_id in
    if latin_1 location then
      (Sent (serialize 201 [("Location", location)]
               (JsonValue (PyDict (jsonable_encoder item)))),
       items)
    else (Unhandled UnicodeEncodeError, items).

(** [delete_item] (lines 139-151). *)
Definition delete_item (item_id : string) (items : registry)
    : outcome * registry :=
  let '(item, items) := dict_pop items item_id in
  if is_None item then
    (Sent (JSONResponse
             ("No item with id '" +:+ item_id +:+ "' found to delete.") 404),
     items)
  else (Sent Response_new, items).

(** [update_item] (lines 154-187).  The parameter [item] is rebound to the
    stored value on the first line of the body; the request's item is not
    read after that. *)
Definition update_item (item_id : string) (item : Item) (items : registry)
    : outcome * registry :=
  let item := dict_get items item_id in
  if is_None item then
    (Sent (JSONResponse ("Item with id '" +:+ item_id +:+ "' does not exist.")
             404),
     items)
  else
    let update_item_encoded := jsonable_encoder_value item in
    (Sent Response_new, <[item_id := update_item_encoded]> items).

(** [edit_item] (lines 189-220). *)
Definition edit_item (item_id : string) (partial_item : PartialItem)
    (items : registry) : outcome * registry :=
  match dict_get items item_id with
  | PyNone =>
      (Sent (JSONResponse
               ("Item with id '" +:+ item_id +:+ "' does not exist.") 404),
       items)
  | PyDict item =>
      match Item_init item with
      | inl e => (Unhandled e, items)
      | inr item_model =>
          let update_data := dict_exclude_unset partial_item in
          let updated_item := copy item_model update_data in
          (Sent Response_new,
           <[item_id := PyDict (jsonable_encoder updated_item)]> items)
      end
  end.

(** ** Requests and runs *)

Inductive request :=
  | GET_index
  | GET_items
  | GET_item (item_id : string)
  | POST_item (item_id : string) (item : Item) (request : Request)
  | DELETE_item (item_id : string)
  | PUT_item (item_id : string) (item : Item)
  | PATCH_item (item_id : string) (partial_item : PartialItem).

Definition handle (r : request) (items : registry) : outcome * registry :=
  match r with
  | GET_index => index items
  | GET_items => get_items items
  | GET_item item_id => get_item item_id items
  | POST_item item_id item request => create_item item_id item request items
  | DELETE_item item_id => delete_item item_id items
  | PUT_item item_id item => update_item item_id item items
  | PATCH_item item_id partial_item => edit_item item_id partial_item items
  end.

(** Serving requests one after the other: the outcomes in order, and the
    registry at the end.  An exception ends its request only; the process and
    its registry stay. *)
Fixpoint serve (rs : list request) (items : registry)
    : list outcome * registry :=
  match rs with
  | [] => ([], items)
  | r :: rs =>
      let '(o, items) := handle r items in
      let '(os, items) := serve rs items in
      (o :: os, items)
  end.

(** The item of the route examples; [0.99] is rounded to the nearest
    binary64 value, as Python rounds it. *)
#[local] Set Warnings "-inexact-float".
Definition soda : Item :=
  mkItem (Some "Soda") (Some "A tasty, sugary drink.") (Some 0.99%float)
    (Some ["drink"; "tasty"]).

Definition localhost : Request := mkRequest "http://127.0.0.1:8000/".

(** PATCH bodies: [{"name": null}], [{"price": 1.5}] and [{}]. *)
Definition null_name : PartialItem :=
  mkPartialItem None None None None {["name"]}.

Definition price_only : PartialItem :=
  mkPartialItem None None (Some 1.5%float) None {["price"]}.

Definition empty_patch : PartialItem :=
  mkPartialItem None None None None ∅.

(** ** Predicates on registries and requests *)

(** No key is bound to [None]. *)
Definition no_null (items : registry) : Prop :=
  map_Forall (λ _ v, is_None v = false) items.

(** Every stored value is a dict that [Item] accepts. *)
Definition all_validate (items : registry) : Prop :=
  map_Forall (λ _ v, validates v = true) items.

(** The value a stored field has after a patch went through: the patch's
    if the patch assigned the field, the stored one otherwise. *)
Definition patched {A} (p : PartialItem) (k : string) (new old : option A)
    : option A :=
  if bool_decide (k ∈ fields_set p) then new else old.

(** A patch that assigns no [null]: what it assigns, it assigns a value. *)
Definition assigns_no_null (p : PartialItem) : bool :=
  bool_decide ("name" ∈ fields_set p → is_Some (p_name p)) &&
  bool_decide ("description" ∈ fields_set p → is_Some (p_description p)) &&
  bool_decide ("price" ∈ fields_set p → is_Some (p_price p)) &&
  bool_decide ("tags" ∈ fields_set p → is_Some (p_tags p)).

(** An [Item] as the request boundary hands it to a handler: validated
    against the annotations, so no attribute is [None]. *)
Definition validated (m : Item) : bool :=
  match none_fields (jsonable_encoder m) with [] => true | _ => false end.

(** Requests whose bodies carry no [null]. *)
Definition null_free (r : request) : bool :=
  match r with
  | POST_item _ item _ | PUT_item _ item => validated item
  | PATCH_item _ partial_item => assigns_no_null partial_item
  | _ => true
  end.

(** Requests whose [Location] value, if they assign one, can be encoded. *)
Definition encodable (r : request) : bool :=
  match r with
  | POST_item item_id _ request =>
      latin_1 (base_url request +:+ "items/" +:+ item_id)
  | _ => true
  end.

(** An id of two characters from U+0100 on, U+6C7D and U+6C34, as it comes
    out of the path [/items/%E6%B1%BD%E6%B0%B4]. *)
Definition qishui : string := "汽水".

Definition is_Unhandled (o : outcome) : bool :=
  match o with Unhandled _ => true | Sent _ => false end.

(** An absolute http(s) URL. *)
Definition is_absolute (url : string) : bool :=
  String.prefix "http://" url || String.prefix "https://" url.

(** ** Notions for the properties of whole runs *)

(** The id in the path of a request to [/items/{item_id}]. *)
Definition request_id (r : request) : option string :=
  match r with
  | GET_index | GET_items => None
  | GET_item item_id | POST_item item_id _ _ | DELETE_item item_id
  | PUT_item item_id _ | PATCH_item item_id _ => Some item_id
  end.


(** The body that assigns what [p1] assigns and then what [p2] assigns. *)
Definition patch_then (p1 p2 : PartialItem) : PartialItem :=
  {| p_name := patched p2 "name" (p_name p2) (p_name p1);
     p_description :=
       patched p2 "description" (p_description p2) (p_description p1);
     p_price := patched p2 "price" (p_price p2) (p_price p1);
     p_tags := patched p2 "tags" (p_tags p2) (p_tags p1);
     fields_set := fields_set p1 ∪ fields_set p2 |}.

(** The stored dict after a patch that went through. *)
Definition patched_dict (p : PartialItem) (d : item_dict) : item_dict :=
  {| d_name := patched p "name" (p_name p) (d_name d);
     d_description :=
       patched p "description" (p_description p) (d_description d);
     d_price := patched p "price" (p_price p) (d_price d);
     d_tags := patched p "tags" (p_tags p) (d_tags d) |}.

Definition cola : Item :=
  mkItem (Some "Cola") (Some "") (Some 1.5%float) (Some []).

(** A registry with [soda] in it and nothing else. *)
Definition soda_only : registry :=
  <["soda" := PyDict (jsonable_encoder soda)]> items_init.

(** PATCH body [{"name": "Pop", "tags": null}]. *)
Definition rename_null_tags : PartialItem :=
  mkPartialItem (Some "Pop") None None None {["name"; "tags"]}.

(** * Properties *)

Example soda_scenario :
  (serve [POST_item "soda" soda localhost; GET_item "soda";
          POST_item "soda" soda localhost; DELETE_item "soda";
          GET_item "soda"; DELETE_item "soda"] items_init).1 =
  [ Sent (mkResponse 201 (JsonValue (PyDict (jsonable_encoder soda)))
            [("Location", "http://127.0.0.1:8000/items/soda")]);
    Sent (mkResponse 200 (JsonValue (PyDict (jsonable_encoder soda))) []);
    Sent (JSONResponse "Item with id 'soda' already exists." 409);
    Sent Response_new;
    Sent (mkResponse 200 (JsonValue PyNone) []);
    Sent (JSONResponse "No item with id 'soda' found to delete." 404) ].
Proof. vm_compute. reflexivity. Qed.



(** ** Reading and popping *)

Lemma dict_get_None (items : registry) k :
  items !! k = None → dict_get items k = PyNone.
Proof. unfold dict_get. by intros ->. Qed.

Lemma dict_get_Some (items : registry) k v :
  items !! k = Some v → dict_get items k = v.
Proof. unfold dict_get. by intros ->. Qed.

Lemma dict_pop_None (items : registry) k :
  items !! k = None → dict_pop items k = (PyNone, items).
Proof.
  intros Hk. unfold dict_pop. rewrite Hk. simpl. f_equal.
  by apply delete_id.
Qed.

Lemma jsonable_encoder_value_id v : jsonable_encoder_value v = v.
Proof. by destruct v as [|[]]. Qed.

(** ** Replace *)

Lemma update_item_absent item_id item (items : registry) :
  items !! item_id = None →
  update_item item_id item items =
    (Sent (JSONResponse ("Item with id '" +:+ item_id +:+ "' does not exist.")
             404),
     items).
Proof.
  intros Hk. unfold update_item. by rewrite (dict_get_None _ _ Hk).
Qed.

Lemma update_item_registry item_id item (items : registry) :
  (update_item item_id item items).2 = items.
Proof.
  unfold update_item, dict_get.
  destruct (items !! item_id) as [v|] eqn:Hk; simpl; [|done].
  destruct (is_None v); simpl; [done|].
  rewrite jsonable_encoder_value_id. by apply insert_id.
Qed.

(** C1.  [update_item] on a missing id answers 404 with the registry as it
    was; on a stored id the stored value is encoded again and written back
    to its own slot, so the entry (and with it the whole registry) is what
    it was, whatever item the request carried. *)
Theorem update_item_restores_stored item_id item (items : registry) :
  (items !! item_id = None →
     update_item item_id item items =
       (Sent (JSONResponse ("Item with id '" +:+ item_id +:+ "' does not exist.")
             404),
     items)) ∧
  (∀ v, items !! item_id = Some v →
     (update_item item_id item items).2 !! item_id = Some v ∧
     (update_item item_id item items).2 = items) ∧
  (∀ item', update_item item_id item' items = update_item item_id item items).
Proof.
  split; [apply update_item_absent|]. split; [|done].
  intros v Hk. rewrite update_item_registry. done.
Qed.

Lemma update_item_restores_stored_witness :
  (<["soda" := PyDict (jsonable_encoder soda)]> items_init : registry)
    !! "soda" = Some (PyDict (jsonable_encoder soda)) ∧
  (update_item "soda" (mkItem (Some "Cola") None None None)
     (<["soda" := PyDict (jsonable_encoder soda)]> items_init)).2 !! "soda" =
    Some (PyDict (jsonable_encoder soda)).
Proof.
  split; [reflexivity|].
  apply (update_item_restores_stored "soda"
           (mkItem (Some "Cola") None None None)
           (<["soda" := PyDict (jsonable_encoder soda)]> items_init)).
  reflexivity.
Defined.

(** ** Create *)

Lemma create_item_absent item_id item req (items : registry) :
  items !! item_id = None →
  latin_1 (base_url req +:+ "items/" +:+ item_id) = true →
  create_item item_id item req items =
    (Sent (mkResponse 201 (JsonValue (PyDict (jsonable_encoder item)))
             [("Location", base_url req +:+ "items/" +:+ item_id)]),
     <[item_id := PyDict (jsonable_encoder item)]> items).
Proof.
  intros Hk Henc. unfold create_item.
  by rewrite (dict_get_None _ _ Hk), Henc.
Qed.

(** On a free id whose [Location] value cannot be encoded, the item is in
    the registry when the exception leaves the handler. *)
Lemma create_item_unencodable item_id item req (items : registry) :
  items !! item_id = None →
  latin_1 (base_url req +:+ "items/" +:+ item_id) = false →
  create_item item_id item req items =
    (Unhandled UnicodeEncodeError,
     <[item_id := PyDict (jsonable_encoder item)]> items).
Proof.
  intros Hk Henc. unfold create_item.
  by rewrite (dict_get_None _ _ Hk), Henc.
Qed.

(** On a free id the item is stored, whatever becomes of the header. *)
Lemma create_item_absent_registry item_id item req (items : registry) :
  items !! item_id = None →
  (create_item item_id item req items).2 =
    <[item_id := PyDict (jsonable_encoder item)]> items.
Proof.
  intros Hk. unfold create_item. rewrite (dict_get_None _ _ Hk). simpl.
  by destruct (latin_1 _).
Qed.

Lemma create_item_present item_id item req (items : registry) d :
  items !! item_id = Some (PyDict d) →
  create_item item_id item req items =
    (Sent (JSONResponse ("Item with id '" +:+ item_id +:+ "' already exists.")
             409),
     items).
Proof.
  intros Hk. unfold create_item. by rewrite (dict_get_Some _ _ _ Hk).
Qed.

(** What a 201 from [create_item] says about the registry it leaves. *)
Lemma create_item_201 item_id item req (items items1 : registry) r :
  create_item item_id item req items = (Sent r, items1) →
  status_code r = 201 →
  items1 = <[item_id := PyDict (jsonable_encoder item)]> items.
Proof.
  unfold create_item.
  destruct (negb (is_None (dict_get items item_id)));
    [intros [= <- <-]; discriminate|].
  destruct (latin_1 _); [by intros [= <- <-] | done].
Qed.

(** C3.  Once [create_item] has answered 201 for an id, creating that id
    again, with any item, answers 409 with a message saying an item with
    that id already exists, leaves the registry as the first call left it,
    and the entry is still the encoding of the first item. *)
Theorem create_item_twice_conflict item_id item1 item2 req1 req2
    (items items1 : registry) r :
  create_item item_id item1 req1 items = (Sent r, items1) →
  status_code r = 201 →
  create_item item_id item2 req2 items1 =
    (Sent (JSONResponse ("Item with id '" +:+ item_id +:+ "' already exists.")
             409),
     items1) ∧
  items1 !! item_id = Some (PyDict (jsonable_encoder item1)).
Proof.
  intros Hcreate Hstatus.
  rewrite (create_item_201 _ _ _ _ _ _ Hcreate Hstatus).
  split; [|apply lookup_insert_eq].
  eapply create_item_present. apply lookup_insert_eq.
Qed.

Lemma create_item_twice_conflict_witness :
  create_item "soda" soda localhost items_init =
    (Sent (mkResponse 201 (JsonValue (PyDict (jsonable_encoder soda)))
             [("Location", "http://127.0.0.1:8000/items/soda")]),
     <["soda" := PyDict (jsonable_encoder soda)]> items_init) ∧
  create_item "soda" (mkItem (Some "Cola") (Some "") (Some 1.5%float) (Some []))
      localhost (<["soda" := PyDict (jsonable_encoder soda)]> items_init) =
    (Sent (JSONResponse "Item with id 'soda' already exists." 409),
     <["soda" := PyDict (jsonable_encoder soda)]> items_init) ∧
  (<["soda" := PyDict (jsonable_encoder soda)]> items_init : registry)
    !! "soda" = Some (PyDict (jsonable_encoder soda)).
Proof.
  split; [reflexivity|].
  apply (create_item_twice_conflict "soda" soda
           (mkItem (Some "Cola") (Some "") (Some 1.5%float) (Some []))
           localhost localhost items_init
           (<["soda" := PyDict (jsonable_encoder soda)]> items_init)
           (mkResponse 201 (JsonValue (PyDict (jsonable_encoder soda)))
              [("Location", "http://127.0.0.1:8000/items/soda")]));
    reflexivity.
Defined.

(** On a free id whose [Location] value can be encoded, [create_item]
    answers 201, and [get_item] on the registry it leaves answers with the
    encoding of the item that was sent. *)
Lemma create_item_encodable_then_get_item item_id item req
    (items : registry) :
  items !! item_id = None →
  latin_1 (base_url req +:+ "items/" +:+ item_id) = true →
  ∃ r items1,
    create_item item_id item req items = (Sent r, items1) ∧
    status_code r = 201 ∧
    get_item item_id items1 =
      (Sent (mkResponse 200 (JsonValue (PyDict (jsonable_encoder item))) []),
       items1).
Proof.
  intros Hk Henc. rewrite (create_item_absent _ _ _ _ Hk Henc).
  eexists _, _. split; [done|]. split; [done|].
  unfold get_item, serialize.
  by rewrite (dict_get_Some _ _ _ (lookup_insert_eq _ _ _)).
Qed.

(** C4, at the input where the code departs from it.  The id of
    [POST /items/%E6%B1%BD%E6%B0%B4] is free in the empty registry and the
    item is the validated [soda]; the request ends in the
    [UnicodeEncodeError] of the header assignment, not in a 201, and the
    item is in the registry all the same. *)
Theorem create_item_free_id_raises :
  items_init !! qishui = None ∧
  validated soda = true ∧
  create_item qishui soda localhost items_init =
    (Unhandled UnicodeEncodeError,
     <[qishui := PyDict (jsonable_encoder soda)]> items_init).
Proof. vm_compute. repeat split; reflexivity. Qed.

(** ** Delete *)

Lemma delete_item_absent item_id (items : registry) :
  items !! item_id = None →
  delete_item item_id items =
    (Sent (JSONResponse
             ("No item with id '" +:+ item_id +:+ "' found to delete.") 404),
     items).
Proof.
  intros Hk. unfold delete_item. by rewrite (dict_pop_None _ _ Hk).
Qed.

Lemma delete_item_present item_id (items : registry) d :
  items !! item_id = Some (PyDict d) →
  delete_item item_id items = (Sent Response_new, delete item_id items).
Proof.
  intros Hk. unfold delete_item, dict_pop. by rewrite Hk.
Qed.




(** ** Operations on a missing id *)

Lemma edit_item_absent item_id partial_item (items : registry) :
  items !! item_id = None →
  edit_item item_id partial_item items =
    (Sent (JSONResponse ("Item with id '" +:+ item_id +:+ "' does not exist.")
             404),
     items).
Proof.
  intros Hk. unfold edit_item. by rewrite (dict_get_None _ _ Hk).
Qed.

(** C6.  On an id the registry does not hold, [edit_item], [update_item] and
    [delete_item] each leave the registry exactly as it was. *)
Theorem absent_id_leaves_registry item_id item partial_item
    (items : registry) :
  items !! item_id = None →
  (edit_item item_id partial_item items).2 = items ∧
  (update_item item_id item items).2 = items ∧
  (delete_item item_id items).2 = items.
Proof.
  intros Hk.
  rewrite (edit_item_absent _ _ _ Hk), (update_item_absent _ _ _ Hk),
    (delete_item_absent _ _ Hk).
  done.
Qed.

Lemma absent_id_leaves_registry_witness :
  (<["soda" := PyDict (jsonable_encoder soda)]> items_init : registry)
    !! "cola" = None ∧
  (edit_item "cola" price_only
     (<["soda" := PyDict (jsonable_encoder soda)]> items_init)).2 =
    <["soda" := PyDict (jsonable_encoder soda)]> items_init ∧
  (update_item "cola" soda
     (<["soda" := PyDict (jsonable_encoder soda)]> items_init)).2 =
    <["soda" := PyDict (jsonable_encoder soda)]> items_init ∧
  (delete_item "cola"
     (<["soda" := PyDict (jsonable_encoder soda)]> items_init)).2 =
    <["soda" := PyDict (jsonable_encoder soda)]> items_init.
Proof.
  split; [reflexivity|].
  apply (absent_id_leaves_registry "cola" soda price_only
           (<["soda" := PyDict (jsonable_encoder soda)]> items_init)).
  reflexivity.
Defined.

(** ** Get *)



(** ** The Location header *)

Lemma prefix_append p u s :
  String.prefix p u = true → String.prefix p (u +:+ s) = true.
Proof.
  revert p. induction u as [|b u IH]; intros [|a p]; simpl; try done.
  - by destruct s.
  - destruct (Ascii.ascii_dec a b); [apply IH | done].
Qed.

Lemma append_assoc (s1 s2 s3 : string) :
  (s1 +:+ s2) +:+ s3 = s1 +:+ s2 +:+ s3.
Proof.
  induction s1 as [|a s1 IH]; [done|].
  change (String a ((s1 +:+ s2) +:+ s3) = String a (s1 +:+ s2 +:+ s3)).
  by f_equal.
Qed.

Lemma is_absolute_append u s :
  is_absolute u = true → is_absolute (u +:+ s) = true.
Proof.
  unfold is_absolute. intros [H|H]%orb_true_iff; apply orb_true_iff;
    [left | right]; by apply prefix_append.
Qed.

(** C9.  A create that succeeds, that is, one on a free id that is
    answered, is answered 201 with the encoding of the item as the body and
    one header, [Location], whose value is the request's base URL followed
    by [items/] and the id.  Starlette's base URL is absolute and ends in a
    slash; under that, the value is an absolute URL that ends in [/items/]
    and the id. *)
Theorem create_item_location item_id item req root (items items1 : registry)
    r :
  items !! item_id = None →
  create_item item_id item req items = (Sent r, items1) →
  base_url req = root +:+ "/" →
  is_absolute (base_url req) = true →
  ∃ location,
    r = mkResponse 201 (JsonValue (PyDict (jsonable_encoder item)))
          [("Location", location)] ∧
    location = base_url req +:+ "items/" +:+ item_id ∧
    location = root +:+ "/items/" +:+ item_id ∧
    is_absolute location = true.
Proof.
  intros Hk Hsent Hroot Habs.
  destruct (latin_1 (base_url req +:+ "items/" +:+ item_id)) eqn:Henc.
  - rewrite (create_item_absent _ _ _ _ Hk Henc) in Hsent.
    injection Hsent as <- <-.
    eexists. split; [done|]. split; [done|]. split.
    + rewrite Hroot. by rewrite append_assoc.
    + by apply is_absolute_append.
  - by rewrite (create_item_unencodable _ _ _ _ Hk Henc) in Hsent.
Qed.

Lemma create_item_location_witness :
  (items_init : registry) !! "soda" = None ∧
  create_item "soda" soda localhost items_init =
    (Sent (mkResponse 201 (JsonValue (PyDict (jsonable_encoder soda)))
             [("Location", "http://127.0.0.1:8000/items/soda")]),
     <["soda" := PyDict (jsonable_encoder soda)]> items_init) ∧
  base_url localhost = "http://127.0.0.1:8000" +:+ "/" ∧
  is_absolute (base_url localhost) = true ∧
  ∃ location,
    mkResponse 201 (JsonValue (PyDict (jsonable_encoder soda)))
      [("Location", "http://127.0.0.1:8000/items/soda")] =
    mkResponse 201 (JsonValue (PyDict (jsonable_encoder soda)))
      [("Location", location)] ∧
    location = base_url localhost +:+ "items/" +:+ "soda" ∧
    location = "http://127.0.0.1:8000" +:+ "/items/" +:+ "soda" ∧
    is_absolute location = true.
Proof.
  split; [reflexivity|]. split; [reflexivity|]. split; [reflexivity|].
  split; [reflexivity|].
  apply (create_item_location "soda" soda localhost "http://127.0.0.1:8000"
           items_init
           (<["soda" := PyDict (jsonable_encoder soda)]> items_init)
           (mkResponse 201 (JsonValue (PyDict (jsonable_encoder soda)))
              [("Location", "http://127.0.0.1:8000/items/soda")]));
    reflexivity.
Defined.

(** ** Partial update *)

Lemma Item_init_inr d m :
  Item_init d = inr m →
  m = mkItem (d_name d) (d_description d) (d_price d) (d_tags d).
Proof.
  unfold Item_init. destruct (none_fields d); [|done]. by intros [= <-].
Qed.

Lemma none_fields_nil d :
  none_fields d = [] ↔
  is_Some (d_name d) ∧ is_Some (d_description d) ∧
  is_Some (d_price d) ∧ is_Some (d_tags d).
Proof.
  destruct d as [[n|] [de|] [p|] [t|]]; simpl; split;
    try done; try (intros (?&?&?&?); by eauto using is_Some_None);
    try (intros _; by eauto 10).
  all: intros (Hn & Hd & Hp & Ht);
    first [by apply is_Some_None in Hn | by apply is_Some_None in Hd
          | by apply is_Some_None in Hp | by apply is_Some_None in Ht].
Qed.

Lemma validates_PyDict d :
  validates (PyDict d) = true ↔ none_fields d = [].
Proof.
  unfold validates, Item_init. by destruct (none_fields d).
Qed.

(** On a stored dict that [Item] accepts, [edit_item] answers with a bare
    response and writes back the dict with each assigned field taken from
    the patch and every other field as it was. *)
Lemma edit_item_valid item_id partial_item (items : registry) d m :
  items !! item_id = Some (PyDict d) →
  Item_init d = inr m →
  edit_item item_id partial_item items =
    (Sent Response_new,
     <[item_id :=
         PyDict
           {| d_name := patched partial_item "name"
                          (p_name partial_item) (d_name d);
              d_description := patched partial_item "description"
                                 (p_description partial_item)
                                 (d_description d);
              d_price := patched partial_item "price"
                           (p_price partial_item) (d_price d);
              d_tags := patched partial_item "tags"
                          (p_tags partial_item) (d_tags d) |}]> items).
Proof.
  intros Hk Hinit. unfold edit_item.
  rewrite (dict_get_Some _ _ _ Hk), Hinit.
  rewrite (Item_init_inr _ _ Hinit).
  unfold copy, dict_exclude_unset, if_set, patched, jsonable_encoder. simpl.
  by repeat case_bool_decide.
Qed.


Example edit_item_price_of_soda :
  edit_item "soda" price_only
    (<["soda" := PyDict (jsonable_encoder soda)]> items_init) =
  (Sent Response_new,
   <["soda" := PyDict (mkDict (Some "Soda") (Some "A tasty, sugary drink.")
                         (Some 1.5%float) (Some ["drink"; "tasty"]))]>
     items_init).
Proof. vm_compute. reflexivity. Qed.

(** C2, at the input where the code departs from it.  After
    [POST /items/soda] and [PATCH /items/soda] with [{"name": null}] the
    stored dict has [name] null; [PATCH /items/soda] with [{"price": 1.5}]
    then ends in the [ValidationError] that [Item] raises on the stored
    dict, and the price stays 0.99. *)
Theorem edit_item_price_after_null_name :
  let items :=
    (serve [POST_item "soda" soda localhost; PATCH_item "soda" null_name]
       items_init).2 in
  items !! "soda" =
    Some (PyDict (mkDict None (Some "A tasty, sugary drink.")
                    (Some 0.99%float) (Some ["drink"; "tasty"]))) ∧
  edit_item "soda" price_only items =
    (Unhandled (ValidationError ["name"]), items).
Proof. vm_compute. split; reflexivity. Qed.

(** ** Unhandled exceptions *)

(** C7, at the input where the code departs from it.  Three requests that
    pass the request validation: create [soda], patch it with
    [{"name": null}], patch it with [{}].  The first two are answered; the
    third ends in a [ValidationError] that no handler catches. *)
Theorem patch_after_null_patch_unhandled :
  serve [POST_item "soda" soda localhost; PATCH_item "soda" null_name;
         PATCH_item "soda" empty_patch] items_init =
  ([ Sent (mkResponse 201 (JsonValue (PyDict (jsonable_encoder soda)))
             [("Location", "http://127.0.0.1:8000/items/soda")]);
     Sent Response_new;
     Unhandled (ValidationError ["name"]) ],
   <["soda" := PyDict (mkDict None (Some "A tasty, sugary drink.")
                         (Some 0.99%float) (Some ["drink"; "tasty"]))]>
     items_init).
Proof. vm_compute. reflexivity. Qed.

Example get_items_after_null_patch :
  (serve [POST_item "soda" soda localhost; PATCH_item "soda" null_name;
          GET_items] items_init).1 !! 2 =
  Some (Unhandled (ValidationError ["response"])).
Proof. vm_compute. reflexivity. Qed.

(** While no body carries a [null], every stored value stays a dict that
    [Item] accepts, and no request ends in an exception unless it is a
    create whose [Location] value cannot be encoded. *)

Lemma validated_validates m :
  validated m = true → validates (PyDict (jsonable_encoder m)) = true.
Proof.
  unfold validated. intros Hm. apply validates_PyDict.
  by destruct (none_fields (jsonable_encoder m)).
Qed.

Lemma assigns_no_null_spec p :
  assigns_no_null p = true →
  ("name" ∈ fields_set p → is_Some (p_name p)) ∧
  ("description" ∈ fields_set p → is_Some (p_description p)) ∧
  ("price" ∈ fields_set p → is_Some (p_price p)) ∧
  ("tags" ∈ fields_set p → is_Some (p_tags p)).
Proof.
  unfold assigns_no_null.
  intros [[[Hn Hd]%andb_true_iff Hp]%andb_true_iff Ht]%andb_true_iff.
  apply bool_decide_eq_true_1 in Hn, Hd, Hp, Ht. done.
Qed.

Lemma patched_is_Some {A} p k (new old : option A) :
  (k ∈ fields_set p → is_Some new) → is_Some old →
  is_Some (patched p k new old).
Proof. unfold patched. case_bool_decide; auto. Qed.

Lemma handle_all_validate r (items : registry) :
  null_free r = true →
  all_validate items →
  all_validate (handle r items).2 ∧
  (encodable r = true → is_Unhandled (handle r items).1 = false).
Proof.
  intros Hr Hitems. destruct r as [| |k|k item req|k|k item|k p]; simpl.
  - done.
  - unfold get_items. rewrite bool_decide_eq_true_2; done.
  - done.
  - unfold create_item. destruct (negb (is_None (dict_get items k))); simpl;
      [done|].
    destruct (latin_1 _); simpl; (split; [|done]);
      (apply map_Forall_insert_2; [by apply validated_validates | done]).
  - unfold delete_item, dict_pop.
    destruct (is_None (default PyNone (items !! k))); simpl;
      (split; [by apply map_Forall_delete | done]).
  - rewrite update_item_registry. split; [done|]. unfold update_item.
    by destruct (is_None (dict_get items k)).
  - destruct (items !! k) as [[|d]|] eqn:Hk.
    + specialize (Hitems _ _ Hk). done.
    + pose proof (Hitems _ _ Hk) as Hd.
      pose proof (proj1 (validates_PyDict d) Hd) as Hnil.
      destruct (Item_init d) as [e|m] eqn:Hinit.
      { simpl in Hd. by rewrite Hinit in Hd. }
      rewrite (edit_item_valid _ _ _ _ _ Hk Hinit). simpl. split; [|done].
      apply map_Forall_insert_2; [|done].
      apply validates_PyDict, none_fields_nil. simpl.
      apply none_fields_nil in Hnil as (Hdn & Hdd & Hdp & Hdt).
      apply assigns_no_null_spec in Hr as (Hn & Hde & Hp & Ht).
      repeat split; by apply patched_is_Some.
    + by rewrite (edit_item_absent _ _ _ Hk).
Qed.

Lemma serve_null_free rs (items : registry) :
  forallb null_free rs = true →
  all_validate items →
  all_validate (serve rs items).2 ∧
  (forallb encodable rs = true →
   existsb is_Unhandled (serve rs items).1 = false).
Proof.
  revert items. induction rs as [|r rs IH]; intros items Hrs Hitems;
    [done|].
  simpl in Hrs. apply andb_true_iff in Hrs as [Hr Hrs].
  destruct (handle_all_validate r items Hr Hitems) as [Hnext Hsent].
  simpl. destruct (handle r items) as [o items1]. simpl in *.
  destruct (IH items1 Hrs Hnext) as [Hend Hall].
  destruct (serve rs items1) as [os items2]. simpl in *.
  split; [done|]. intros [Henc Hencs]%andb_true_iff.
  by rewrite (Hsent Henc), (Hall Hencs).
Qed.

(** From the empty registry, requests without a [null] and with headers
    that can be encoded are all answered. *)
Corollary serve_null_free_init rs :
  forallb null_free rs = true →
  forallb encodable rs = true →
  existsb is_Unhandled (serve rs items_init).1 = false.
Proof.
  intros Hrs Henc.
  by apply (serve_null_free rs items_init Hrs); [apply map_Forall_empty|].
Qed.

(** ** No stored value is [None] *)

Lemma handle_no_null r (items : registry) :
  no_null items → no_null (handle r items).2.
Proof.
  intros Hitems. destruct r as [| |k|k item req|k|k item|k p]; simpl.
  - done.
  - unfold get_items. by case_bool_decide.
  - done.
  - unfold create_item. destruct (negb (is_None (dict_get items k))); simpl;
      [done|]. destruct (latin_1 _); simpl; by apply map_Forall_insert_2.
  - unfold delete_item, dict_pop.
    destruct (is_None (default PyNone (items !! k))); simpl;
      by apply map_Forall_delete.
  - by rewrite update_item_registry.
  - unfold edit_item. destruct (dict_get items k) as [|d]; [done|].
    destruct (Item_init d); simpl; [done|]. by apply map_Forall_insert_2.
Qed.

Lemma serve_no_null rs (items : registry) :
  no_null items → no_null (serve rs items).2.
Proof.
  revert items. induction rs as [|r rs IH]; intros items Hitems; [done|].
  simpl. pose proof (handle_no_null r items Hitems) as Hnext.
  destruct (handle r items) as [o items1]. simpl in Hnext.
  specialize (IH items1 Hnext).
  by destruct (serve rs items1).
Qed.

Lemma no_null_is_None (items : registry) k :
  no_null items →
  negb (is_None (dict_get items k)) = true ↔ k ∈ dom items.
Proof.
  intros Hitems. rewrite elem_of_dom. unfold dict_get.
  destruct (items !! k) as [[|d]|] eqn:Hk; simpl.
  - by specialize (Hitems _ _ Hk).
  - split; [by eauto | done].
  - split; [done | by intros ?%is_Some_None].
Qed.

(** C10.  The empty registry binds no key to [None]; whatever the request,
    a registry that binds no key to [None] is left that way by its handler;
    and in such a registry the test of [create_item], that [items.get] is
    not [None], holds exactly of the keys of the registry, and [get_item]
    answers null exactly for the ids that are not keys. *)
Theorem registry_never_holds_None :
  no_null items_init ∧
  (∀ r (items : registry), no_null items → no_null (handle r items).2) ∧
  (∀ (items : registry) item_id,
     no_null items →
     (negb (is_None (dict_get items item_id)) = true ↔
        item_id ∈ dom items) ∧
     ((get_item item_id items).1 =
        Sent (mkResponse 200 (JsonValue PyNone) []) ↔
      items !! item_id = None)).
Proof.
  split; [apply map_Forall_empty|]. split; [apply handle_no_null|].
  intros items k Hitems. split; [by apply no_null_is_None|].
  unfold get_item, serialize, dict_get. simpl.
  destruct (items !! k) as [[|d]|] eqn:Hk; simpl.
  - by specialize (Hitems _ _ Hk).
  - split; [by intros [=] | done].
  - done.
Qed.

(** The registry that any run of requests from the empty registry ends in
    binds no key to [None]. *)
Lemma reachable_no_null rs : no_null (serve rs items_init).2.
Proof. apply serve_no_null, map_Forall_empty. Qed.

Lemma registry_never_holds_None_witness :
  no_null (<["soda" := PyDict (jsonable_encoder soda)]> items_init) ∧
  no_null (handle (PATCH_item "soda" null_name)
             (<["soda" := PyDict (jsonable_encoder soda)]> items_init)).2 ∧
  (negb (is_None (dict_get
                    (<["soda" := PyDict (jsonable_encoder soda)]> items_init)
                    "cola")) = true ↔
   "cola" ∈ dom (<["soda" := PyDict (jsonable_encoder soda)]> items_init
                  : registry)).
Proof.
  assert (no_null (<["soda" := PyDict (jsonable_encoder soda)]> items_init))
    as Hsoda.
  { apply (bool_decide_unpack _). vm_compute. exact I. }
  split; [exact Hsoda|]. split.
  - apply (proj1 (proj2 registry_never_holds_None)
             (PATCH_item "soda" null_name)
             (<["soda" := PyDict (jsonable_encoder soda)]> items_init)).
    exact Hsoda.
  - apply (proj2 (proj2 registry_never_holds_None)
             (<["soda" := PyDict (jsonable_encoder soda)]> items_init)
             "cola").
    exact Hsoda.
Defined.

(** * Further properties of the handlers *)

(** ** What a request can touch *)

(** A request leaves every id but the one in its path as it was: its
    entry, or its absence. *)
Theorem handle_other_ids r k (items : registry) :
  request_id r ≠ Some k →
  (handle r items).2 !! k = items !! k.
Proof.
  intros Hne.
  destruct r as [| |k0|k0 item req|k0|k0 item|k0 p]; simpl in *;
    try assert (k0 ≠ k) as Hk0 by congruence.
  - done.
  - unfold get_items. by case_bool_decide.
  - done.
  - unfold create_item. destruct (negb (is_None (dict_get items k0))); simpl;
      [done|]. destruct (latin_1 _); simpl; by apply lookup_insert_ne.
  - unfold delete_item, dict_pop.
    destruct (is_None (default PyNone (items !! k0))); simpl;
      by apply lookup_delete_ne.
  - by rewrite update_item_registry.
  - unfold edit_item. destruct (dict_get items k0) as [|d]; [done|].
    destruct (Item_init d); simpl; [done | by apply lookup_insert_ne].
Qed.

Lemma handle_other_ids_witness :
  request_id (DELETE_item "soda") ≠ Some "cola" ∧
  (handle (DELETE_item "soda") (<["cola" := PyDict (jsonable_encoder cola)]>
                                  soda_only)).2 !! "cola" =
    (<["cola" := PyDict (jsonable_encoder cola)]> soda_only : registry)
      !! "cola".
Proof.
  assert (request_id (DELETE_item "soda") ≠ Some "cola") as Hne
    by discriminate.
  split; [exact Hne|].
  apply (handle_other_ids (DELETE_item "soda") "cola"
           (<["cola" := PyDict (jsonable_encoder cola)]> soda_only) Hne).
Defined.

Lemma dict_get_is_Some (items : registry) k :
  is_None (dict_get items k) = false → is_Some (items !! k).
Proof.
  unfold dict_get. destruct (items !! k); [by eauto | done].
Qed.

(** The keys of the registry after a request: [create_item] makes its id a
    key, [delete_item] makes its id no key, and no other handler changes the
    set of keys. *)
Theorem handle_dom r (items : registry) :
  dom (handle r items).2 =
    match r with
    | POST_item item_id _ _ => {[item_id]} ∪ dom items
    | DELETE_item item_id => dom items ∖ {[item_id]}
    | _ => dom items
    end.
Proof.
  destruct r as [| |k|k item req|k|k item|k p]; simpl.
  - done.
  - unfold get_items. by case_bool_decide.
  - done.
  - unfold create_item.
    destruct (is_None (dict_get items k)) eqn:Hk; simpl.
    + destruct (latin_1 _); simpl; by rewrite dom_insert_L.
    + apply dict_get_is_Some, elem_of_dom in Hk.
      symmetry. by apply subseteq_union_1_L, singleton_subseteq_l.
  - unfold delete_item, dict_pop.
    destruct (is_None (default PyNone (items !! k))); simpl;
      by rewrite dom_delete_L.
  - by rewrite update_item_registry.
  - unfold edit_item. destruct (dict_get items k) as [|d] eqn:Hk; [done|].
    destruct (Item_init d); simpl; [done|].
    apply dom_insert_lookup_L, dict_get_is_Some. by rewrite Hk.
Qed.



(** ** Requests one after the other *)





(** Two items created under two free ids end in the same registry whichever
    is created first, and it holds both. *)
Theorem create_items_commute a b item_a item_b req_a req_b
    (items : registry) :
  a ≠ b →
  items !! a = None →
  items !! b = None →
  (serve [POST_item a item_a req_a; POST_item b item_b req_b] items).2 =
    (serve [POST_item b item_b req_b; POST_item a item_a req_a] items).2 ∧
  (serve [POST_item a item_a req_a; POST_item b item_b req_b] items).2 !! a =
    Some (PyDict (jsonable_encoder item_a)) ∧
  (serve [POST_item a item_a req_a; POST_item b item_b req_b] items).2 !! b =
    Some (PyDict (jsonable_encoder item_b)).
Proof.
  intros Hab Ha Hb. simpl.
  assert (<[a := PyDict (jsonable_encoder item_a)]> items !! b = None) as Hb'
    by by rewrite lookup_insert_ne.
  assert (<[b := PyDict (jsonable_encoder item_b)]> items !! a = None) as Ha'
    by by rewrite lookup_insert_ne.
  pose proof (create_item_absent_registry a item_a req_a _ Ha) as Ea.
  pose proof (create_item_absent_registry b item_b req_b _ Hb) as Eb.
  destruct (create_item a item_a req_a items) as [oa ?],
    (create_item b item_b req_b items) as [ob ?]. simpl in Ea, Eb. subst.
  pose proof (create_item_absent_registry a item_a req_a _ Ha') as Ea.
  pose proof (create_item_absent_registry b item_b req_b _ Hb') as Eb.
  destruct (create_item a item_a req_a _) as [oa' ?],
    (create_item b item_b req_b _) as [ob' ?]. simpl in Ea, Eb. subst.
  simpl. split; [by apply insert_insert_ne|].
  split; [|by apply lookup_insert_eq].
  rewrite lookup_insert_ne; [|done]. by apply lookup_insert_eq.
Qed.

Lemma create_items_commute_witness :
  "soda" ≠ "cola" ∧
  items_init !! "soda" = None ∧
  items_init !! "cola" = None ∧
  (serve [POST_item "soda" soda localhost; POST_item "cola" cola localhost]
     items_init).2 =
    (serve [POST_item "cola" cola localhost; POST_item "soda" soda localhost]
       items_init).2.
Proof.
  assert ("soda" ≠ "cola") as Hne by discriminate.
  split; [exact Hne|]. split; [reflexivity|]. split; [reflexivity|].
  apply (create_items_commute "soda" "cola" soda cola localhost localhost
           items_init Hne); reflexivity.
Defined.



(** ** Patches *)

Lemma Item_init_valid d :
  none_fields d = [] →
  Item_init d = inr (mkItem (d_name d) (d_description d) (d_price d) (d_tags d)).
Proof. unfold Item_init. by intros ->. Qed.


Lemma edit_item_patched item_id p (items : registry) d :
  items !! item_id = Some (PyDict d) →
  none_fields d = [] →
  edit_item item_id p items =
    (Sent Response_new, <[item_id := PyDict (patched_dict p d)]> items).
Proof.
  intros Hk Hd. exact (edit_item_valid _ p _ _ _ Hk (Item_init_valid _ Hd)).
Qed.

Lemma update_item_present item_id item (items : registry) d :
  items !! item_id = Some (PyDict d) →
  update_item item_id item items = (Sent Response_new, items).
Proof.
  intros Hk. unfold update_item. rewrite (dict_get_Some _ _ _ Hk). simpl.
  f_equal. apply insert_id. by destruct d.
Qed.

Lemma patched_dict_valid p d :
  assigns_no_null p = true →
  none_fields d = [] →
  none_fields (patched_dict p d) = [].
Proof.
  intros (Hn & Hde & Hp & Ht)%assigns_no_null_spec
         (Hdn & Hdd & Hdp & Hdt)%none_fields_nil.
  apply none_fields_nil. simpl. repeat split; by apply patched_is_Some.
Qed.






(** A patch that assigns nothing, the body [{}], leaves the registry as it
    was when the stored item has no [None] in it. *)
Theorem edit_item_empty_patch item_id p (items : registry) d :
  items !! item_id = Some (PyDict d) →
  none_fields d = [] →
  fields_set p = ∅ →
  edit_item item_id p items = (Sent (mkResponse 200 Empty []), items).
Proof.
  intros Hk Hd Hp. rewrite (edit_item_patched _ _ _ _ Hk Hd).
  unfold Response_new. f_equal. apply insert_id. rewrite Hk. do 2 f_equal.
  unfold patched_dict, patched. rewrite Hp. by destruct d.
Qed.

Lemma edit_item_empty_patch_witness :
  soda_only !! "soda" = Some (PyDict (jsonable_encoder soda)) ∧
  none_fields (jsonable_encoder soda) = [] ∧
  fields_set empty_patch = ∅ ∧
  edit_item "soda" empty_patch soda_only =
    (Sent (mkResponse 200 Empty []), soda_only).
Proof.
  split; [reflexivity|]. split; [reflexivity|]. split; [reflexivity|].
  apply (edit_item_empty_patch "soda" empty_patch soda_only
           (jsonable_encoder soda)); reflexivity.
Defined.

Lemma patched_then {A} p1 p2 k (v1 v2 old : option A) :
  patched p2 k v2 (patched p1 k v1 old) =
  patched (patch_then p1 p2) k (patched p2 k v2 v1) old.
Proof.
  unfold patched at 1 2 3. unfold patched, patch_then. simpl.
  destruct (decide (k ∈ fields_set p1)) as [H1|H1];
    destruct (decide (k ∈ fields_set p2)) as [H2|H2];
    rewrite ?(bool_decide_eq_true_2 _ H1), ?(bool_decide_eq_true_2 _ H2),
      ?(bool_decide_eq_false_2 _ H1), ?(bool_decide_eq_false_2 _ H2);
    case_bool_decide as H12; try done;
    rewrite elem_of_union in H12; tauto.
Qed.

(** Two patches of one stored item, the first without a [null], leave the
    registry that the one patch does which assigns what either assigns, the
    second winning where both assign. *)
Theorem edit_item_twice item_id p1 p2 (items : registry) d :
  items !! item_id = Some (PyDict d) →
  none_fields d = [] →
  assigns_no_null p1 = true →
  edit_item item_id p2 (edit_item item_id p1 items).2 =
    edit_item item_id (patch_then p1 p2) items.
Proof.
  intros Hk Hd Hp1.
  rewrite (edit_item_patched _ p1 _ _ Hk Hd),
    (edit_item_patched _ (patch_then p1 p2) _ _ Hk Hd). simpl.
  rewrite (edit_item_patched _ p2 _ _ (lookup_insert_eq _ _ _)
             (patched_dict_valid _ _ Hp1 Hd)).
  rewrite insert_insert_eq. do 3 f_equal.
  unfold patched_dict at 1 3. simpl. by rewrite !patched_then.
Qed.

Lemma edit_item_twice_witness :
  soda_only !! "soda" = Some (PyDict (jsonable_encoder soda)) ∧
  none_fields (jsonable_encoder soda) = [] ∧
  assigns_no_null price_only = true ∧
  edit_item "soda" rename_null_tags (edit_item "soda" price_only soda_only).2
    = edit_item "soda" (patch_then price_only rename_null_tags) soda_only.
Proof.
  split; [reflexivity|]. split; [reflexivity|].
  split; [vm_compute; reflexivity|].
  apply (edit_item_twice "soda" price_only rename_null_tags soda_only
           (jsonable_encoder soda)); [reflexivity | reflexivity |].
  vm_compute. reflexivity.
Defined.

Lemma patched_twice {A} p k (v old : option A) :
  patched p k v (patched p k v old) = patched p k v old.
Proof. unfold patched. by case_bool_decide. Qed.

(** Sending a patch without a [null] a second time changes nothing: the
    answer is the same and the registry is the one the first left. *)
Theorem edit_item_idempotent item_id p (items : registry) d :
  items !! item_id = Some (PyDict d) →
  none_fields d = [] →
  assigns_no_null p = true →
  edit_item item_id p (edit_item item_id p items).2 =
    (Sent (mkResponse 200 Empty []), (edit_item item_id p items).2).
Proof.
  intros Hk Hd Hp. rewrite (edit_item_patched _ p _ _ Hk Hd). simpl.
  rewrite (edit_item_patched _ p _ _ (lookup_insert_eq _ _ _)
             (patched_dict_valid _ _ Hp Hd)).
  rewrite insert_insert_eq. unfold Response_new. do 3 f_equal.
  unfold patched_dict at 1. simpl. by rewrite !patched_twice.
Qed.

Lemma edit_item_idempotent_witness :
  soda_only !! "soda" = Some (PyDict (jsonable_encoder soda)) ∧
  none_fields (jsonable_encoder soda) = [] ∧
  assigns_no_null price_only = true ∧
  edit_item "soda" price_only (edit_item "soda" price_only soda_only).2 =
    (Sent (mkResponse 200 Empty []),
     (edit_item "soda" price_only soda_only).2).
Proof.
  split; [reflexivity|]. split; [reflexivity|].
  split; [vm_compute; reflexivity|].
  apply (edit_item_idempotent "soda" price_only soda_only
           (jsonable_encoder soda)); [reflexivity | reflexivity |].
  vm_compute. reflexivity.
Defined.

(** ** A stored [None] *)







(** ** Status codes *)

(** The status of every answer, read off the handlers: 200 for the three
    reads; 409 or 201 for [create_item], as the id is a key or not; 200 or
    404 for [delete_item], [update_item] and [edit_item], as the id is a key
    or not.  The 204 of the route decorators is not among them: these three
    handlers return a response object, which is sent with its own status. *)
Theorem status_of_answer r (items : registry) resp :
  no_null items →
  (handle r items).1 = Sent resp →
  status_code resp =
    match r with
    | GET_index | GET_items | GET_item _ => 200
    | POST_item item_id _ _ =>
        if bool_decide (item_id ∈ dom items) then 409 else 201
    | DELETE_item item_id | PUT_item item_id _ | PATCH_item item_id _ =>
        if bool_decide (item_id ∈ dom items) then 200 else 404
    end.
Proof.
  intros Hitems.
  destruct r as [| |k|k item req|k|k item|k p]; simpl.
  1: by intros [= <-].
  1: unfold get_items; case_bool_decide; [by intros [= <-] | done].
  1: by intros [= <-].
  all: destruct (items !! k) as [[|d]|] eqn:Hk;
    [ by specialize (Hitems _ _ Hk)
    | rewrite bool_decide_eq_true_2 by (apply elem_of_dom; eauto)
    | rewrite bool_decide_eq_false_2
        by (rewrite elem_of_dom, Hk; apply is_Some_None) ].
  - rewrite (create_item_present _ _ _ _ _ Hk). by intros [= <-].
  - unfold create_item. rewrite (dict_get_None _ _ Hk). simpl.
    destruct (latin_1 _); [by intros [= <-] | done].
  - rewrite (delete_item_present _ _ _ Hk). by intros [= <-].
  - rewrite (delete_item_absent _ _ Hk). by intros [= <-].
  - rewrite (update_item_present _ _ _ _ Hk). by intros [= <-].
  - rewrite (update_item_absent _ _ _ Hk). by intros [= <-].
  - unfold edit_item. rewrite (dict_get_Some _ _ _ Hk).
    destruct (Item_init d); [done | by intros [= <-]].
  - rewrite (edit_item_absent _ _ _ Hk). by intros [= <-].
Qed.

Lemma status_of_answer_witness :
  no_null soda_only ∧
  (handle (PUT_item "soda" cola) soda_only).1 =
    Sent (mkResponse 200 Empty []) ∧
  status_code (mkResponse 200 Empty []) =
    if bool_decide ("soda" ∈ dom soda_only) then 200 else 404.
Proof.
  assert (no_null soda_only) as Hsoda.
  { apply (bool_decide_unpack _). vm_compute. exact I. }
  split; [exact Hsoda|]. split; [reflexivity|].
  apply (status_of_answer (PUT_item "soda" cola) soda_only
           (mkResponse 200 Empty []) Hsoda).
  reflexivity.
Defined.

(** ** An id that the Location header cannot carry *)

Example latin_1_examples :
  latin_1 "http://127.0.0.1:8000/items/soda" = true ∧
  latin_1 "café" = true ∧
  String.length qishui = 6 ∧
  latin_1 qishui = false.
Proof. vm_compute. repeat split; reflexivity. Qed.


